(* ===================================================================== *)
(* UserService (src/infrastructure/db/services/user.py)                   *)
(*                                                                       *)
(* A shallow embedding of the user-management service and of the         *)
(* collaborators it calls (unit of work, user repository, pydantic        *)
(* schemas, password hashing), followed by the properties of the service. *)
(* ===================================================================== *)

From Stdlib Require Import ZArith Lia.
From stdpp Require Import base option list strings gmap.

Local Open Scope string_scope.
Local Open Scope Z_scope.
Local Open Scope list_scope.

(* --------------------------------------------------------------------- *)
(* 1. Python values, dictionaries, schemas                                *)
(* --------------------------------------------------------------------- *)

(** The Python values that occur as fields of a schema or of a row. *)
Inductive value : Type :=
  | VNone
  | VBool (b : bool)
  | VInt (n : Z)
  | VStr (s : string).

#[global] Instance value_eq_dec : EqDecision value.
Proof. solve_decision. Defined.

(** Python truthiness, as used by [if update_schema.password:]. *)
Definition truthy (v : value) : bool :=
  match v with
  | VNone => false
  | VBool b => b
  | VInt n => negb (Z.eqb n 0)
  | VStr s => negb (String.eqb s "")
  end.

(** A pydantic model instance (UserCreate, UserUpdate): the value of every
    declared field, and the names of the fields the caller set explicitly
    (pydantic's [model_fields_set]). *)
Record Schema : Type := {
  values : gmap string value;
  fields_set : gset string
}.

(** Attribute access [schema.name].  A declared field is always in
    [values]; an optional field that was not set holds its default,
    [None]. *)
Definition getattr (name : string) (s : Schema) : value :=
  default VNone (values s !! name).

(** [schema.model_dump(exclude=..., exclude_unset=...)]. *)
Definition model_dump (exclude : gset string) (exclude_unset : bool)
    (s : Schema) : gmap string value :=
  filter (fun kv : string * value =>
            (kv.1 ∉ exclude) /\ (exclude_unset = true -> kv.1 ∈ fields_set s))
         (values s).

(* --------------------------------------------------------------------- *)
(* 2. Specifications, entities, exceptions                                *)
(* --------------------------------------------------------------------- *)

(** src/utils/specification: the two filter descriptors. *)
Inductive Specification : Type :=
  | UserIDSpecification (id : Z)
  | UserEmailSpecification (email : value).

#[global] Instance Specification_eq_dec : EqDecision Specification.
Proof. solve_decision. Defined.

(** A row of the users table: the system-assigned identifier and the
    remaining columns by name. *)
Record User : Type := {
  uid : Z;
  columns : gmap string value
}.

#[global] Instance User_eq_dec : EqDecision User.
Proof. solve_decision. Defined.

(** src/api/exceptions: the two signals the service raises itself.  An
    exception of the storage layer is not one of them: the service has no
    handler, so such a fault would pass through it unchanged, and the
    model leaves it out. *)
Inductive Exception : Type :=
  | UserNotFoundException (spec : Specification)
  | UserAlreadyExistsException.

#[global] Instance Exception_eq_dec : EqDecision Exception.
Proof. solve_decision. Defined.

(* --------------------------------------------------------------------- *)
(* 3. The collaborators as interfaces                                     *)
(* --------------------------------------------------------------------- *)

(** src/core/security: the one-way password hashing function. *)
Class Security : Type := {
  generate_hashed_password : value -> value
}.

(** src/infrastructure/db/uow: the transactional context ([async with uow],
    [uow.commit()]) and its [uow.user] repository, as transformers of the
    state [S] of the storage layer.  [aexit raised] is the exit of the
    scope; [raised] tells whether an exception is leaving it.  The methods
    are total: a run of the model is a run of the code in which no
    collaborator call fails, and a statement below about what an operation
    raises is about the service's own [raise] statements. *)
Class UnitOfWork (S : Type) : Type := {
  aenter : S -> S;
  aexit : bool -> S -> S;
  commit : S -> S;
  user_get : Specification -> S -> option User * S;
  user_get_multi : Z -> Z -> S -> list User * S;
  user_get_user_refresh_session : Specification -> S -> option User * S;
  user_create : gmap string value -> S -> User * S;
  user_update : Specification -> Schema -> S -> option User * S;
  user_delete : Specification -> S -> option User * S
}.

(** The calls the service makes on the unit of work, with their
    arguments, in the order they are made. *)
Inductive Call : Type :=
  | CEnter
  | CExit (raised : bool)
  | CCommit
  | CGet (spec : Specification)
  | CGetMulti (skip limit : Z)
  | CGetUserRefreshSession (spec : Specification)
  | CCreate (create_schema : gmap string value)
  | CUpdate (spec : Specification) (update_schema : Schema)
  | CDelete (spec : Specification).

Definition is_write (c : Call) : bool :=
  match c with
  | CCreate _ | CUpdate _ _ | CDelete _ => true
  | _ => false
  end.

Definition is_commit (c : Call) : bool :=
  match c with
  | CCommit => true
  | _ => false
  end.

(* --------------------------------------------------------------------- *)
(* 4. The monad of the service: state, call log, exceptions               *)
(* --------------------------------------------------------------------- *)

Inductive Outcome (A : Type) : Type :=
  | Return (a : A)
  | Raise (e : Exception).
Arguments Return {A} a.
Arguments Raise {A} e.

Definition is_Raise {A} (r : Outcome A) : bool :=
  match r with
  | Return _ => false
  | Raise _ => true
  end.

Record World (S : Type) : Type := {
  store : S;
  calls : list Call
}.
Arguments store {S} w.
Arguments calls {S} w.

Definition M (S A : Type) : Type := World S -> Outcome A * World S.

Definition ret {S A} (a : A) : M S A := fun w => (Return a, w).

Definition raise {S A} (e : Exception) : M S A := fun w => (Raise e, w).

Definition bind {S A B} (m : M S A) (k : A -> M S B) : M S B :=
  fun w =>
    match m w with
    | (Return a, w') => k a w'
    | (Raise e, w') => (Raise e, w')
    end.

Notation "x <- m ;; k" := (bind m (fun x => k))
  (at level 100, m at next level, right associativity).
Notation "m ;;; k" := (bind m (fun _ => k))
  (at level 100, right associativity).

(** One call on the unit of work: run it on the store and log it. *)
Definition invoke {S A} (c : Call) (f : S -> A * S) : M S A :=
  fun w =>
    let '(a, s') := f (store w) in
    (Return a, {| store := s'; calls := calls w ++ [c] |}).

Definition effect {S} (c : Call) (f : S -> S) : M S unit :=
  invoke c (fun s => (tt, f s)).

(** [async with uow: body]: enter, run the body, exit on every path. *)
Definition async_with {S} `{!UnitOfWork S} {A} (body : M S A) : M S A :=
  fun w =>
    match (effect CEnter aenter ;;; body) w with
    | (r, w') =>
        let raised := is_Raise r in
        (r, snd (effect (CExit raised) (aexit raised) w'))
    end.

(* --------------------------------------------------------------------- *)
(* 5. The service                                                         *)
(* --------------------------------------------------------------------- *)

Module UserService.
Section Service.
Context {S : Type} `{!UnitOfWork S} `{!Security}.

Definition uow_commit : M S unit := effect CCommit commit.
Definition uow_user_get spec : M S (option User) :=
  invoke (CGet spec) (user_get spec).
Definition uow_user_get_multi skip limit : M S (list User) :=
  invoke (CGetMulti skip limit) (user_get_multi skip limit).
Definition uow_user_get_user_refresh_session spec : M S (option User) :=
  invoke (CGetUserRefreshSession spec) (user_get_user_refresh_session spec).
Definition uow_user_create create_schema : M S User :=
  invoke (CCreate create_schema) (user_create create_schema).
Definition uow_user_update spec update_schema : M S (option User) :=
  invoke (CUpdate spec update_schema) (user_update spec update_schema).
Definition uow_user_delete spec : M S (option User) :=
  invoke (CDelete spec) (user_delete spec).

(** user.py, lines 24-45. *)
Definition get_by_id (user_id : Z) : M S User :=
  let spec := UserIDSpecification user_id in
  user <- async_with
            (user <- uow_user_get spec ;;
             uow_commit ;;;
             ret user) ;;
  match user with
  | None => raise (UserNotFoundException spec)
  | Some user => ret user
  end.

(** user.py, lines 47-57. *)
Definition get_user_with_refresh_session (email : value) : M S (option User) :=
  let spec := UserEmailSpecification email in
  user <- async_with
            (user <- uow_user_get_user_refresh_session spec ;;
             uow_commit ;;;
             ret user) ;;
  ret user.

(** user.py, lines 59-79.  [None] stands for an argument the caller
    leaves out: [skip] then defaults to 0 and [limit] to 100. *)
Definition get_all (skip limit : option Z) : M S (list User) :=
  let skip := default 0 skip in
  let limit := default 100 limit in
  users <- async_with
             (users <- uow_user_get_multi skip limit ;;
              uow_commit ;;;
              ret users) ;;
  ret users.

(** user.py, lines 81-104. *)
Definition get_by_email (email : value) : M S (option User) :=
  let spec := UserEmailSpecification email in
  user <- async_with
            (user <- uow_user_get spec ;;
             uow_commit ;;;
             ret user) ;;
  ret user.

(** user.py, lines 106-138. *)
Definition create (create_schema : Schema) : M S User :=
  user <- get_by_email (getattr "email" create_schema) ;;
  match user with
  | None =>
      let _schema := model_dump {["password"]} false create_schema in
      let _schema :=
        <["hashed_password" :=
            generate_hashed_password (getattr "password" create_schema)]>
          _schema in
      user <- async_with
                (user <- uow_user_create _schema ;;
                 uow_commit ;;;
                 ret user) ;;
      ret user
  | Some _ => raise UserAlreadyExistsException
  end.

(** user.py, lines 140-181.  In the first branch [_schema] is built and
    then not used: the repository receives [update_schema] itself. *)
Definition update (user_id : Z) (update_schema : Schema) : M S User :=
  let spec := UserIDSpecification user_id in
  if truthy (getattr "password" update_schema) then
    let _schema := model_dump {["password"]} true update_schema in
    let _schema :=
      <["hashed_password" :=
          generate_hashed_password (getattr "password" update_schema)]>
        _schema in
    user <- async_with
              (user <- uow_user_update spec update_schema ;;
               uow_commit ;;;
               ret user) ;;
    match user with
    | None => raise (UserNotFoundException spec)
    | Some user => ret user
    end
  else
    user <- async_with
              (user <- uow_user_update spec update_schema ;;
               uow_commit ;;;
               ret user) ;;
    match user with
    | None => raise (UserNotFoundException spec)
    | Some user => ret user
    end.

(** user.py, lines 183-204. *)
Definition delete (user_id : Z) : M S User :=
  let spec := UserIDSpecification user_id in
  user <- async_with
            (user <- uow_user_delete spec ;;
             match user with
             | None => raise (UserNotFoundException spec)
             | Some user =>
                 uow_commit ;;;
                 ret user
             end) ;;
  ret user.

End Service.
End UserService.

(* --------------------------------------------------------------------- *)
(* 6. An in-memory storage layer                                          *)
(* --------------------------------------------------------------------- *)

(** The users table: its rows in insertion order and the next identifier
    the storage layer will assign. *)
Record Table : Type := {
  rows : list User;
  next_id : Z
}.

(** The storage layer: the committed table, and the table as the open
    transaction sees it. *)
Record Database : Type := {
  committed : Table;
  session : Table
}.

(** Modelled from the spec: the specification objects of
    src/utils/specification are missing; a filter by id or by email "carries
    the lookup key" and is "used to locate exactly one User". *)
Definition satisfies (spec : Specification) (u : User) : bool :=
  match spec with
  | UserIDSpecification id => bool_decide (uid u = id)
  | UserEmailSpecification email => bool_decide (columns u !! "email" = Some email)
  end.

Definition lookup_user (spec : Specification) (t : Table) : option User :=
  List.find (satisfies spec) (rows t).

Definition in_session (f : Table -> Table) (db : Database) : Database :=
  {| committed := committed db; session := f (session db) |}.

(** Modelled from the spec: the unit of work of src/infrastructure/db/uow
    is missing; it is "a transactional scope bundling one or more storage
    operations with atomic commit/rollback", with "guaranteed
    commit/rollback on every exit path" and "enter/exit-with-commit
    semantics".  Entering opens a transaction on the committed table;
    commit publishes the transaction's table; an exit that an exception
    leaves through rolls back, a normal exit commits. *)
Definition db_begin (db : Database) : Database :=
  {| committed := committed db; session := committed db |}.

Definition db_commit (db : Database) : Database :=
  {| committed := session db; session := session db |}.

Definition db_rollback (db : Database) : Database :=
  {| committed := committed db; session := committed db |}.

Definition db_end (raised : bool) (db : Database) : Database :=
  if raised then db_rollback db else db_commit db.

(** Modelled from the spec: the user repository behind [uow.user] is
    missing; it offers "get/get_multi/get_user_refresh_session/create/
    update/delete, each accepting a filter descriptor or raw fields and
    returning an entity or an absence marker".  [get_multi] is an "ordered
    sequence of User, bounded by limit, offset by skip", in insertion order;
    [create] assigns the identifier; [update] changes "only fields
    explicitly present in the input"; [delete] returns "the deleted
    entity's last-known data".  Negative [skip] and [limit] are read as 0:
    the spec does not say what the storage layer does with them. *)
Definition db_get (spec : Specification) (db : Database) : option User * Database :=
  (lookup_user spec (session db), db).

Definition db_get_multi (skip limit : Z) (db : Database) : list User * Database :=
  (take (Z.to_nat limit) (drop (Z.to_nat skip) (rows (session db))), db).

Definition db_create (create_schema : gmap string value) (db : Database)
    : User * Database :=
  let user := {| uid := next_id (session db); columns := create_schema |} in
  (user,
   in_session (fun t => {| rows := rows t ++ [user]; next_id := next_id t + 1 |}) db).

Definition apply_update (update_schema : Schema) (u : User) : User :=
  {| uid := uid u;
     columns := model_dump ∅ true update_schema ∪ columns u |}.

Definition db_update (spec : Specification) (update_schema : Schema)
    (db : Database) : option User * Database :=
  match lookup_user spec (session db) with
  | None => (None, db)
  | Some user =>
      (Some (apply_update update_schema user),
       in_session
         (fun t =>
            {| rows := map (fun r => if satisfies spec r
                                     then apply_update update_schema r else r)
                           (rows t);
               next_id := next_id t |}) db)
  end.

Definition db_delete (spec : Specification) (db : Database)
    : option User * Database :=
  match lookup_user spec (session db) with
  | None => (None, db)
  | Some user =>
      (Some user,
       in_session
         (fun t =>
            {| rows := List.filter (fun r => negb (satisfies spec r)) (rows t);
               next_id := next_id t |}) db)
  end.

#[global] Instance Database_uow : UnitOfWork Database := {|
  aenter := db_begin;
  aexit := db_end;
  commit := db_commit;
  user_get := db_get;
  user_get_multi := db_get_multi;
  user_get_user_refresh_session := db_get;
  user_create := db_create;
  user_update := db_update;
  user_delete := db_delete
|}.

(** A database with nothing in flight. *)
Definition at_rest (t : Table) : Database :=
  {| committed := t; session := t |}.

(** A stand-in for the hashing function in the examples: it tags the
    plaintext, so its result differs from every input. *)
Definition tag_hash : Security :=
  {| generate_hashed_password v :=
       match v with
       | VStr s => VStr (String.append "#" s)
       | _ => VStr "#"
       end |}.

(** Sample data of the examples. *)
Definition dict (l : list (string * value)) : gmap string value :=
  list_to_map l.

Definition alice : User :=
  {| uid := 1;
     columns := dict [("email", VStr "a@example.com");
                      ("hashed_password", VStr "#p1")] |}.

Definition bob : User :=
  {| uid := 2;
     columns := dict [("email", VStr "b@example.com");
                      ("hashed_password", VStr "#p2")] |}.

Definition alice_again : Schema :=
  {| values := dict [("email", VStr "a@example.com"); ("password", VStr "p1")];
     fields_set := {["email"; "password"]} |}.

Definition carol : Schema :=
  {| values := dict [("email", VStr "c@example.com"); ("password", VStr "p3")];
     fields_set := {["email"; "password"]} |}.

Definition only_email : Schema :=
  {| values := dict [("email", VStr "a2@example.com"); ("password", VNone)];
     fields_set := {["email"]} |}.

Definition new_password : Schema :=
  {| values := dict [("email", VNone); ("password", VStr "p9")];
     fields_set := {["password"]} |}.

Definition no_users : World Database :=
  {| store := at_rest {| rows := []; next_id := 1 |};
     calls := [] |}.

Definition two_users : World Database :=
  {| store := at_rest {| rows := [alice; bob]; next_id := 3 |};
     calls := [] |}.

(* --------------------------------------------------------------------- *)
(* 7. Reading the call log                                                *)
(* --------------------------------------------------------------------- *)

(** The calls a run added to the log of the world [w] it started from,
    [w'] being the world it left. *)
Definition added {S} (w w' : World S) : list Call :=
  drop (length (calls w)) (calls w').

(** Where a call stands with respect to the transactional scope: outside
    of any scope, inside one (before or after its commit), or after a call
    that was out of place. *)
Inductive Position : Type :=
  | Outside
  | Inside (after_commit : bool)
  | Misplaced.

(** The discipline of [async with uow: ...; await uow.commit()]: a scope
    is entered from outside only; the repository is called inside a scope
    that has not committed yet; a scope left normally has committed, once;
    a scope left by an exception has not committed. *)
Definition step (p : Position) (c : Call) : Position :=
  match p, c with
  | Outside, CEnter => Inside false
  | Inside false, CCommit => Inside true
  | Inside true, CExit false => Outside
  | Inside false, CExit true => Outside
  | Inside false, (CGet _ | CGetMulti _ _ | CGetUserRefreshSession _
                  | CCreate _ | CUpdate _ _ | CDelete _) => Inside false
  | _, _ => Misplaced
  end.

Definition transactional (cs : list Call) : Prop :=
  fold_left step cs Outside = Outside.

Definition count_writes (cs : list Call) : nat :=
  length (List.filter is_write cs).

(** Two readings of a table: every identifier is below the next one to be
    assigned; no two rows have the same email column. *)
Definition fresh_ids (t : Table) : Prop :=
  Forall (fun u => uid u < next_id t) (rows t).

Definition emails (t : Table) : list (option value) :=
  map (fun u => columns u !! "email") (rows t).

Definition unique_emails (t : Table) : Prop := NoDup (emails t).

(** For the statements below: the world a run leaves behind, given the
    store it reached and the calls it added; and the outcome of the
    absence check [if not user: raise UserNotFoundException(spec)]. *)
Definition after {S} (w : World S) (s : S) (cs : list Call) : World S :=
  {| store := s; calls := calls w ++ cs |}.

Definition found_or_raise (spec : Specification) (user : option User)
    : Outcome User :=
  match user with
  | None => Raise (UserNotFoundException spec)
  | Some user => Return user
  end.

(* ===================================================================== *)
(* Properties                                                            *)
(* ===================================================================== *)

(* --------------------------------------------------------------------- *)
(* 8. What each operation does, for every unit of work                    *)
(* --------------------------------------------------------------------- *)

Ltac unfold_service :=
  unfold UserService.get_by_id, UserService.get_user_with_refresh_session,
    UserService.get_all, UserService.get_by_email, UserService.create,
    UserService.update, UserService.delete,
    UserService.uow_commit, UserService.uow_user_get,
    UserService.uow_user_get_multi,
    UserService.uow_user_get_user_refresh_session,
    UserService.uow_user_create, UserService.uow_user_update,
    UserService.uow_user_delete,
    async_with, effect, invoke, bind, ret, raise.

Ltac tidy_calls :=
  cbn [store calls fst snd is_Raise]; rewrite <- ?app_assoc; cbn [app].

Section Runs.
Context {S : Type} `{!UnitOfWork S}.

Lemma get_by_id_run (user_id : Z) (w : World S) :
  let spec := UserIDSpecification user_id in
  let r := user_get spec (aenter (store w)) in
  UserService.get_by_id user_id w =
    (found_or_raise spec r.1,
     after w (aexit false (commit r.2)) [CEnter; CGet spec; CCommit; CExit false]).
Proof.
  intros spec r. subst r. unfold_service. cbn [store calls]. fold spec.
  destruct (user_get spec (aenter (store w))) as [[u|] s]; tidy_calls; reflexivity.
Qed.

Lemma get_by_email_run (email : value) (w : World S) :
  let spec := UserEmailSpecification email in
  let r := user_get spec (aenter (store w)) in
  UserService.get_by_email email w =
    (Return r.1,
     after w (aexit false (commit r.2)) [CEnter; CGet spec; CCommit; CExit false]).
Proof.
  intros spec r. subst r. unfold_service. cbn [store calls]. fold spec.
  destruct (user_get spec (aenter (store w))) as [u s]; tidy_calls; reflexivity.
Qed.

Lemma get_user_with_refresh_session_run (email : value) (w : World S) :
  let spec := UserEmailSpecification email in
  let r := user_get_user_refresh_session spec (aenter (store w)) in
  UserService.get_user_with_refresh_session email w =
    (Return r.1,
     after w (aexit false (commit r.2))
       [CEnter; CGetUserRefreshSession spec; CCommit; CExit false]).
Proof.
  intros spec r. subst r. unfold_service. cbn [store calls]. fold spec.
  destruct (user_get_user_refresh_session spec (aenter (store w))) as [u s];
    tidy_calls; reflexivity.
Qed.

Lemma get_all_run (skip limit : option Z) (w : World S) :
  let skip' := default 0 skip in
  let limit' := default 100 limit in
  let r := user_get_multi skip' limit' (aenter (store w)) in
  UserService.get_all skip limit w =
    (Return r.1,
     after w (aexit false (commit r.2))
       [CEnter; CGetMulti skip' limit'; CCommit; CExit false]).
Proof.
  intros skip' limit' r. subst r. unfold_service. cbn [store calls]. fold skip' limit'.
  destruct (user_get_multi skip' limit' (aenter (store w))) as [u s];
    tidy_calls; reflexivity.
Qed.

Lemma update_run {hasher : Security} (user_id : Z) (update_schema : Schema)
    (w : World S) :
  let spec := UserIDSpecification user_id in
  let r := user_update spec update_schema (aenter (store w)) in
  UserService.update user_id update_schema w =
    (found_or_raise spec r.1,
     after w (aexit false (commit r.2))
       [CEnter; CUpdate spec update_schema; CCommit; CExit false]).
Proof.
  intros spec r. subst r. unfold_service. cbn [store calls]. fold spec.
  destruct (truthy (getattr "password" update_schema));
    destruct (user_update spec update_schema (aenter (store w))) as [[u|] s];
    tidy_calls; reflexivity.
Qed.

Lemma delete_run (user_id : Z) (w : World S) :
  let spec := UserIDSpecification user_id in
  let r := user_delete spec (aenter (store w)) in
  UserService.delete user_id w =
    match r.1 with
    | Some user =>
        (Return user,
         after w (aexit false (commit r.2))
           [CEnter; CDelete spec; CCommit; CExit false])
    | None =>
        (Raise (UserNotFoundException spec),
         after w (aexit true r.2) [CEnter; CDelete spec; CExit true])
    end.
Proof.
  intros spec r. subst r. unfold_service. cbn [store calls]. fold spec.
  destruct (user_delete spec (aenter (store w))) as [[u|] s];
    tidy_calls; reflexivity.
Qed.

Lemma create_run {hasher : Security} (create_schema : Schema) (w : World S) :
  let email := getattr "email" create_schema in
  let spec := UserEmailSpecification email in
  let r := user_get spec (aenter (store w)) in
  let s1 := aexit false (commit r.2) in
  let d := <["hashed_password" :=
               generate_hashed_password (getattr "password" create_schema)]>
             (model_dump {["password"]} false create_schema) in
  let r2 := user_create d (aenter s1) in
  UserService.create create_schema w =
    match r.1 with
    | Some _ =>
        (Raise UserAlreadyExistsException,
         after w s1 [CEnter; CGet spec; CCommit; CExit false])
    | None =>
        (Return r2.1,
         after w (aexit false (commit r2.2))
           [CEnter; CGet spec; CCommit; CExit false;
            CEnter; CCreate d; CCommit; CExit false])
    end.
Proof.
  intros email spec r s1 d r2. subst r s1 r2.
  unfold UserService.create. fold email d. unfold bind at 1.
  rewrite get_by_email_run. fold spec.
  destruct (user_get spec (aenter (store w))) as [[u|] s]; cbn [fst snd];
    [reflexivity|].
  unfold_service. unfold after. cbn [store calls].
  destruct (user_create d (aenter (aexit false (commit s)))) as [u s'];
    tidy_calls; reflexivity.
Qed.

(** The hashing function has no influence on what [update] does. *)
Lemma update_ignores_hash (h1 h2 : Security) (user_id : Z)
    (update_schema : Schema) (w : World S) :
  @UserService.update S _ h1 user_id update_schema w =
  @UserService.update S _ h2 user_id update_schema w.
Proof. rewrite !update_run. reflexivity. Qed.

End Runs.

(* --------------------------------------------------------------------- *)
(* 9. Facts about the in-memory storage layer                             *)
(* --------------------------------------------------------------------- *)

Arguments lookup_user : simpl never.
Arguments model_dump : simpl never.
Arguments apply_update : simpl never.
Arguments getattr : simpl never.

Lemma satisfies_id (user_id : Z) (u : User) :
  satisfies (UserIDSpecification user_id) u = true <-> uid u = user_id.
Proof. simpl. apply bool_decide_eq_true. Qed.

Lemma satisfies_email (email : value) (u : User) :
  satisfies (UserEmailSpecification email) u = true <->
  columns u !! "email" = Some email.
Proof. simpl. apply bool_decide_eq_true. Qed.

Lemma lookup_user_None (spec : Specification) (t : Table) :
  lookup_user spec t = None <->
  Forall (fun u => satisfies spec u = false) (rows t).
Proof.
  unfold lookup_user. induction (rows t) as [|r l IH]; simpl.
  - split; [constructor | reflexivity].
  - destruct (satisfies spec r) eqn:E.
    + split; [discriminate|]. intros H. inversion H; congruence.
    + rewrite IH. split; [by constructor | by inversion 1].
Qed.

Lemma lookup_user_Some (spec : Specification) (t : Table) (u : User) :
  lookup_user spec t = Some u -> u ∈ rows t /\ satisfies spec u = true.
Proof.
  unfold lookup_user. intros H. apply find_some in H as [Hin Hs].
  split; [by apply list_elem_of_In | done].
Qed.

Lemma lookup_user_is_Some (spec : Specification) (t : Table) (u : User) :
  u ∈ rows t -> satisfies spec u = true -> is_Some (lookup_user spec t).
Proof.
  intros Hin Hs. destruct (lookup_user spec t) eqn:E; [by eexists|].
  apply lookup_user_None in E. rewrite Forall_forall in E.
  specialize (E u Hin). congruence.
Qed.

Lemma id_absent_lookup (user_id : Z) (t : Table) :
  Forall (fun u => uid u <> user_id) (rows t) ->
  lookup_user (UserIDSpecification user_id) t = None.
Proof.
  intros H. apply lookup_user_None. eapply Forall_impl; [exact H|].
  intros u Hu. simpl. by apply bool_decide_eq_false.
Qed.

Lemma email_absent_lookup (email : value) (t : Table) :
  Forall (fun u => columns u !! "email" <> Some email) (rows t) ->
  lookup_user (UserEmailSpecification email) t = None.
Proof.
  intros H. apply lookup_user_None. eapply Forall_impl; [exact H|].
  intros u Hu. simpl. by apply bool_decide_eq_false.
Qed.

(** A scope that only reads leaves the committed table as it was. *)
Lemma read_only_scope (db : Database) :
  db_end false (db_commit (db_begin db)) = at_rest (committed db).
Proof. reflexivity. Qed.

Lemma find_after_filter (spec : Specification) (l : list User) :
  List.find (satisfies spec)
            (List.filter (fun r => negb (satisfies spec r)) l) = None.
Proof.
  induction l as [|r l IH]; simpl; [done|].
  destruct (satisfies spec r) eqn:E; simpl; [done|]. by rewrite E.
Qed.

Lemma find_after_update (user_id : Z) (update_schema : Schema) (l : list User) :
  let spec := UserIDSpecification user_id in
  List.find (satisfies spec)
            (map (fun r => if satisfies spec r
                           then apply_update update_schema r else r) l) =
  apply_update update_schema <$> List.find (satisfies spec) l.
Proof.
  intros spec. induction l as [|r l IH]; simpl; [done|].
  destruct (bool_decide (uid r = user_id)) eqn:E; simpl; rewrite E; [done|].
  exact IH.
Qed.

(* --------------------------------------------------------------------- *)
(* 10. The properties of the service                                     *)
(* --------------------------------------------------------------------- *)

(** C7. [get_by_email] never raises: for every email and every unit of
    work it returns normally, and what it returns is the repository's
    answer to the lookup by that email, the absence marker [None]
    included. *)
Theorem get_by_email_never_raises {S : Type} `{!UnitOfWork S}
    (email : value) (w : World S) :
  exists w',
    UserService.get_by_email email w =
      (Return (user_get (UserEmailSpecification email) (aenter (store w))).1, w').
Proof. rewrite get_by_email_run. eexists. reflexivity. Qed.

(** C10. [get_user_with_refresh_session] returns the result of the
    repository's [get_user_refresh_session] unchanged, the absence marker
    included, and raises neither NotFound nor AlreadyExists. *)
Theorem get_user_with_refresh_session_passes_through {S : Type}
    `{!UnitOfWork S} (email : value) (w : World S) :
  exists w',
    UserService.get_user_with_refresh_session email w =
      (Return (user_get_user_refresh_session
                 (UserEmailSpecification email) (aenter (store w))).1, w').
Proof. rewrite get_user_with_refresh_session_run. eexists. reflexivity. Qed.

(** C1. When a stored user already has the email of the payload, [create]
    raises AlreadyExists; the only calls it makes are the lookup by email
    inside its scope (no [create] call, no write), and the committed table
    is what it was. *)
Theorem create_existing_email {hasher : Security} (create_schema : Schema)
    (w : World Database) (u : User) :
  u ∈ rows (committed (store w)) ->
  columns u !! "email" = Some (getattr "email" create_schema) ->
  exists w',
    UserService.create create_schema w = (Raise UserAlreadyExistsException, w') /\
    calls w' =
      calls w ++
        [CEnter; CGet (UserEmailSpecification (getattr "email" create_schema));
         CCommit; CExit false] /\
    Forall (fun c => is_write c = false)
           (drop (length (calls w)) (calls w')) /\
    committed (store w') = committed (store w).
Proof.
  intros Hin Hemail. rewrite create_run.
  destruct (lookup_user_is_Some
              (UserEmailSpecification (getattr "email" create_schema))
              (committed (store w)) u Hin) as [u' Hu'].
  { by apply satisfies_email. }
  cbn. rewrite Hu'.
  eexists. split; [reflexivity|]. cbn.
  split; [reflexivity|]. split; [|reflexivity].
  rewrite drop_app_length. repeat constructor.
Qed.

Lemma create_existing_email_witness :
  alice ∈ rows (committed (store two_users)) /\
  columns alice !! "email" = Some (getattr "email" alice_again) /\
  exists w',
    @UserService.create _ _ tag_hash alice_again two_users =
      (Raise UserAlreadyExistsException, w') /\
    calls w' =
      calls two_users ++
        [CEnter; CGet (UserEmailSpecification (getattr "email" alice_again));
         CCommit; CExit false] /\
    Forall (fun c => is_write c = false)
           (drop (length (calls two_users)) (calls w')) /\
    committed (store w') = committed (store two_users).
Proof.
  assert (H1 : alice ∈ rows (committed (store two_users))) by apply list_elem_of_here.
  assert (H2 : columns alice !! "email" = Some (getattr "email" alice_again))
    by reflexivity.
  exact (conj H1 (conj H2
           (@create_existing_email tag_hash alice_again two_users alice H1 H2))).
Defined.

(** C4. When no stored user has the id, [get_by_id], [update] and [delete]
    each raise NotFound, and the exception carries the id filter built
    from that id. *)
Theorem absent_id_raises_not_found {hasher : Security} (user_id : Z)
    (update_schema : Schema) (w : World Database) :
  Forall (fun u => uid u <> user_id) (rows (committed (store w))) ->
  (UserService.get_by_id user_id w).1 =
    Raise (UserNotFoundException (UserIDSpecification user_id)) /\
  (UserService.update user_id update_schema w).1 =
    Raise (UserNotFoundException (UserIDSpecification user_id)) /\
  (UserService.delete user_id w).1 =
    Raise (UserNotFoundException (UserIDSpecification user_id)).
Proof.
  intros H. apply id_absent_lookup in H.
  rewrite get_by_id_run, update_run, delete_run.
  cbn. unfold db_update, db_delete. cbn. rewrite H. done.
Qed.

Lemma absent_id_raises_not_found_witness :
  Forall (fun u => uid u <> 7) (rows (committed (store two_users))) /\
  (UserService.get_by_id 7 two_users).1 =
    Raise (UserNotFoundException (UserIDSpecification 7)) /\
  (@UserService.update _ _ tag_hash 7 only_email two_users).1 =
    Raise (UserNotFoundException (UserIDSpecification 7)) /\
  (UserService.delete 7 two_users).1 =
    Raise (UserNotFoundException (UserIDSpecification 7)).
Proof.
  assert (H : Forall (fun u => uid u <> 7) (rows (committed (store two_users))))
    by (repeat constructor; discriminate).
  exact (conj H (@absent_id_raises_not_found tag_hash 7 only_email two_users H)).
Defined.

(** C9. When no stored user has the id, [delete] raises NotFound inside
    its scope: the scope is left by the exception, no commit call is made
    and the committed table is what it was.  [get_by_id] and [update]
    commit and leave their scope normally, and raise afterwards. *)
Theorem delete_raises_before_commit {hasher : Security} (user_id : Z)
    (update_schema : Schema) (w : World Database) :
  Forall (fun u => uid u <> user_id) (rows (committed (store w))) ->
  UserService.delete user_id w =
    (Raise (UserNotFoundException (UserIDSpecification user_id)),
     after w (at_rest (committed (store w)))
       [CEnter; CDelete (UserIDSpecification user_id); CExit true]) /\
  Forall (fun c => is_commit c = false)
         (drop (length (calls w)) (calls (UserService.delete user_id w).2)) /\
  UserService.get_by_id user_id w =
    (Raise (UserNotFoundException (UserIDSpecification user_id)),
     after w (at_rest (committed (store w)))
       [CEnter; CGet (UserIDSpecification user_id); CCommit; CExit false]) /\
  UserService.update user_id update_schema w =
    (Raise (UserNotFoundException (UserIDSpecification user_id)),
     after w (at_rest (committed (store w)))
       [CEnter; CUpdate (UserIDSpecification user_id) update_schema;
        CCommit; CExit false]).
Proof.
  intros H. apply id_absent_lookup in H.
  rewrite get_by_id_run, update_run, delete_run.
  cbn. unfold db_update, db_delete. cbn. rewrite H. cbn.
  repeat split; try reflexivity.
  rewrite drop_app_length. repeat constructor.
Qed.

Lemma delete_raises_before_commit_witness :
  Forall (fun u => uid u <> 7) (rows (committed (store two_users))) /\
  UserService.delete 7 two_users =
    (Raise (UserNotFoundException (UserIDSpecification 7)),
     after two_users (at_rest (committed (store two_users)))
       [CEnter; CDelete (UserIDSpecification 7); CExit true]) /\
  Forall (fun c => is_commit c = false)
         (drop (length (calls two_users))
               (calls (UserService.delete 7 two_users).2)) /\
  UserService.get_by_id 7 two_users =
    (Raise (UserNotFoundException (UserIDSpecification 7)),
     after two_users (at_rest (committed (store two_users)))
       [CEnter; CGet (UserIDSpecification 7); CCommit; CExit false]) /\
  @UserService.update _ _ tag_hash 7 only_email two_users =
    (Raise (UserNotFoundException (UserIDSpecification 7)),
     after two_users (at_rest (committed (store two_users)))
       [CEnter; CUpdate (UserIDSpecification 7) only_email;
        CCommit; CExit false]).
Proof.
  assert (H : Forall (fun u => uid u <> 7) (rows (committed (store two_users))))
    by (repeat constructor; discriminate).
  exact (conj H (@delete_raises_before_commit tag_hash 7 only_email two_users H)).
Defined.

(** C5. When the stored user with the id is [u], [delete] returns [u] and
    commits a table without any row of that id, so that a [get_by_id] on
    the same id afterwards raises NotFound. *)
Theorem delete_then_get_by_id (user_id : Z) (w : World Database) (u : User) :
  lookup_user (UserIDSpecification user_id) (committed (store w)) = Some u ->
  exists w1 w2,
    UserService.delete user_id w = (Return u, w1) /\
    rows (committed (store w1)) =
      List.filter (fun r => negb (bool_decide (uid r = user_id)))
                  (rows (committed (store w))) /\
    Forall (fun r => uid r <> user_id) (rows (committed (store w1))) /\
    UserService.get_by_id user_id w1 =
      (Raise (UserNotFoundException (UserIDSpecification user_id)), w2).
Proof.
  intros H. do 2 eexists.
  split.
  { rewrite delete_run. cbn. unfold db_delete. cbn. rewrite H. reflexivity. }
  split; [reflexivity|].
  split.
  - apply Forall_forall. intros r Hr. apply list_elem_of_In in Hr.
    apply filter_In in Hr as [_ Hr]. apply negb_true_iff in Hr.
    by apply bool_decide_eq_false in Hr.
  - rewrite get_by_id_run. cbn. unfold lookup_user. cbn.
    rewrite (find_after_filter (UserIDSpecification user_id)). reflexivity.
Qed.

Lemma delete_then_get_by_id_witness :
  lookup_user (UserIDSpecification 1) (committed (store two_users)) = Some alice /\
  exists w1 w2,
    UserService.delete 1 two_users = (Return alice, w1) /\
    rows (committed (store w1)) =
      List.filter (fun r => negb (bool_decide (uid r = 1)))
                  (rows (committed (store two_users))) /\
    Forall (fun r => uid r <> 1) (rows (committed (store w1))) /\
    UserService.get_by_id 1 w1 =
      (Raise (UserNotFoundException (UserIDSpecification 1)), w2).
Proof.
  assert (H : lookup_user (UserIDSpecification 1) (committed (store two_users))
              = Some alice) by reflexivity.
  exact (conj H (delete_then_get_by_id 1 two_users alice H)).
Defined.

Lemma model_dump_unset (exclude : gset string) (s : Schema) (k : string) :
  k ∉ fields_set s -> model_dump exclude true s !! k = None.
Proof.
  intros Hk. unfold model_dump. apply map_lookup_filter_None. right.
  intros v _ [_ Hset]. apply Hk. by apply Hset.
Qed.

Lemma apply_update_unset (update_schema : Schema) (u : User) (k : string) :
  k ∉ fields_set update_schema ->
  columns (apply_update update_schema u) !! k = columns u !! k.
Proof.
  intros Hk. unfold apply_update. cbn [columns].
  apply lookup_union_r. by apply model_dump_unset.
Qed.

Lemma updated_rows_other (user_id : Z) (update_schema : Schema)
    (l : list User) (r : User) :
  let spec := UserIDSpecification user_id in
  uid r <> user_id ->
  (r ∈ map (fun r => if satisfies spec r
                     then apply_update update_schema r else r) l) <-> r ∈ l.
Proof.
  intros spec Hr. rewrite !list_elem_of_In, in_map_iff. split.
  - intros [x [Hx Hin]]. destruct (satisfies spec x) eqn:E.
    + apply satisfies_id in E. subst r. by destruct Hr.
    + by subst x.
  - intros Hin. exists r. split; [|done].
    destruct (satisfies spec r) eqn:E; [|done].
    apply satisfies_id in E. by destruct Hr.
Qed.

(** C6. When the stored user with the id is [u], [update] returns and
    stores a user with the same id in which every field that the payload
    did not set has the value it has in [u] (so a payload that sets only
    the email leaves the hashed password as it was); the stored users with
    another id are untouched. *)
Theorem update_leaves_unset_fields {hasher : Security} (user_id : Z)
    (update_schema : Schema) (w : World Database) (u : User) :
  lookup_user (UserIDSpecification user_id) (committed (store w)) = Some u ->
  exists u' w',
    UserService.update user_id update_schema w = (Return u', w') /\
    lookup_user (UserIDSpecification user_id) (committed (store w')) = Some u' /\
    uid u' = uid u /\
    (forall k, k ∉ fields_set update_schema ->
               columns u' !! k = columns u !! k) /\
    (forall r, uid r <> user_id ->
               r ∈ rows (committed (store w')) <-> r ∈ rows (committed (store w))).
Proof.
  intros H. exists (apply_update update_schema u). eexists.
  split.
  { rewrite update_run. cbn. unfold db_update. cbn. rewrite H. reflexivity. }
  split.
  { unfold lookup_user in *. cbn.
    rewrite (find_after_update user_id update_schema). by rewrite H. }
  split; [reflexivity|].
  split.
  - intros k Hk. by apply apply_update_unset.
  - intros r Hr. cbn. by apply updated_rows_other.
Qed.

Lemma update_leaves_unset_fields_witness :
  lookup_user (UserIDSpecification 1) (committed (store two_users)) = Some alice /\
  exists u' w',
    @UserService.update _ _ tag_hash 1 only_email two_users = (Return u', w') /\
    lookup_user (UserIDSpecification 1) (committed (store w')) = Some u' /\
    uid u' = uid alice /\
    (forall k, k ∉ fields_set only_email ->
               columns u' !! k = columns alice !! k) /\
    (forall r, uid r <> 1 ->
               r ∈ rows (committed (store w')) <->
               r ∈ rows (committed (store two_users))).
Proof.
  assert (H : lookup_user (UserIDSpecification 1) (committed (store two_users))
              = Some alice) by reflexivity.
  exact (conj H (@update_leaves_unset_fields tag_hash 1 only_email two_users alice H)).
Defined.



Lemma model_dump_excluded (exclude : gset string) (unset : bool) (s : Schema)
    (k : string) :
  k ∈ exclude -> model_dump exclude unset s !! k = None.
Proof.
  intros Hk. unfold model_dump. apply map_lookup_filter_None. right.
  intros v _ [Hex _]. by apply Hex.
Qed.

Lemma model_dump_kept (exclude : gset string) (s : Schema) (k : string) :
  k ∉ exclude -> model_dump exclude false s !! k = values s !! k.
Proof.
  intros Hk. unfold model_dump. destruct (values s !! k) as [v|] eqn:E.
  - apply map_lookup_filter_Some. split; [done|]. split; [done|]. discriminate.
  - apply map_lookup_filter_None. by left.
Qed.

(** C3. When no stored user has the email of the payload, and the hash of
    the payload's password differs from that password, [create] returns a
    user that it appends to the committed table, built from the dictionary
    passed to the repository's [create]: it has no [password] field, its
    [hashed_password] is the hash, which is not the plaintext, and its
    other fields are those of the payload. *)
Theorem create_fresh_email_stores_hash {hasher : Security}
    (create_schema : Schema) (w : World Database) :
  Forall (fun u => columns u !! "email" <> Some (getattr "email" create_schema))
         (rows (committed (store w))) ->
  generate_hashed_password (getattr "password" create_schema) <>
    getattr "password" create_schema ->
  exists user w',
    UserService.create create_schema w = (Return user, w') /\
    rows (committed (store w')) = rows (committed (store w)) ++ [user] /\
    CCreate (columns user) ∈ calls w' /\
    columns user !! "password" = None /\
    columns user !! "hashed_password" =
      Some (generate_hashed_password (getattr "password" create_schema)) /\
    columns user !! "hashed_password" <>
      Some (getattr "password" create_schema) /\
    (forall k, k <> "password" -> k <> "hashed_password" ->
               columns user !! k = values create_schema !! k).
Proof.
  intros Hfresh Hhash. apply email_absent_lookup in Hfresh.
  do 2 eexists. split.
  { rewrite create_run. cbn. rewrite Hfresh. reflexivity. }
  cbn. split; [reflexivity|].
  split.
  { set_solver. }
  split.
  { rewrite lookup_insert_ne by done. apply model_dump_excluded. set_solver. }
  split; [by rewrite lookup_insert_eq|].
  split.
  { rewrite lookup_insert_eq. intros [= E]. by apply Hhash. }
  intros k Hk1 Hk2. rewrite lookup_insert_ne by done.
  apply model_dump_kept. set_solver.
Qed.

Lemma create_fresh_email_stores_hash_witness :
  Forall (fun u => columns u !! "email" <> Some (getattr "email" carol))
         (rows (committed (store two_users))) /\
  @generate_hashed_password tag_hash (getattr "password" carol) <>
    getattr "password" carol /\
  exists user w',
    @UserService.create _ _ tag_hash carol two_users = (Return user, w') /\
    rows (committed (store w')) = rows (committed (store two_users)) ++ [user] /\
    CCreate (columns user) ∈ calls w' /\
    columns user !! "password" = None /\
    columns user !! "hashed_password" =
      Some (@generate_hashed_password tag_hash (getattr "password" carol)) /\
    columns user !! "hashed_password" <> Some (getattr "password" carol) /\
    (forall k, k <> "password" -> k <> "hashed_password" ->
               columns user !! k = values carol !! k).
Proof.
  assert (H1 : Forall (fun u => columns u !! "email" <>
                                Some (getattr "email" carol))
                      (rows (committed (store two_users))))
    by (repeat constructor; discriminate).
  assert (H2 : @generate_hashed_password tag_hash (getattr "password" carol) <>
               getattr "password" carol)
    by discriminate.
  exact (conj H1 (conj H2
           (@create_fresh_email_stores_hash tag_hash carol two_users H1 H2))).
Defined.

(** C2. The code at a payload with a new password: [update] of user 1
    with password "p9" passes the payload itself to the repository's
    [update], plaintext password included and without a [hashed_password];
    the stored hash stays the old one, not the hash of "p9". *)
Theorem update_password_not_hashed :
  exists u' w',
    @UserService.update _ _ tag_hash 1 new_password two_users = (Return u', w') /\
    calls w' = [CEnter; CUpdate (UserIDSpecification 1) new_password;
                CCommit; CExit false] /\
    getattr "password" new_password = VStr "p9" /\
    model_dump ∅ true new_password !! "password" = Some (VStr "p9") /\
    model_dump ∅ true new_password !! "hashed_password" = None /\
    lookup_user (UserIDSpecification 1) (committed (store w')) = Some u' /\
    columns u' !! "hashed_password" = Some (VStr "#p1") /\
    columns u' !! "hashed_password" <>
      Some (@generate_hashed_password tag_hash (VStr "p9")).
Proof.
  do 2 eexists.
  split; [vm_compute; reflexivity|].
  repeat (split; [vm_compute; reflexivity|]).
  vm_compute. discriminate.
Qed.

(** The scenario of the specification, run on an empty table: create a
    user, read it back with a hashed password, fail to create it again,
    delete it, fail to read it back. *)
Example scenario :
  exists a w1 w2 w3 w4 w5,
    @UserService.create _ _ tag_hash alice_again no_users = (Return a, w1) /\
    UserService.get_by_id (uid a) w1 = (Return a, w2) /\
    columns a !! "hashed_password" = Some (VStr "#p1") /\
    columns a !! "password" = None /\
    @UserService.create _ _ tag_hash alice_again w2 =
      (Raise UserAlreadyExistsException, w3) /\
    UserService.delete (uid a) w3 = (Return a, w4) /\
    UserService.get_by_id (uid a) w4 =
      (Raise (UserNotFoundException (UserIDSpecification (uid a))), w5).
Proof.
  do 6 eexists.
  repeat (split; [vm_compute; reflexivity|]).
  vm_compute; reflexivity.
Qed.

(* --------------------------------------------------------------------- *)
(* 11. The call discipline of the service, for every unit of work         *)
(* --------------------------------------------------------------------- *)

Lemma added_after {S} (w : World S) (s : S) (cs : list Call) :
  added w (after w s cs) = cs.
Proof. unfold added, after. cbn [calls]. apply drop_app_length. Qed.

Ltac case_repository :=
  repeat match goal with
    | |- context [user_get ?spec ?s] =>
        destruct (user_get spec s) as [[?|] ?]
    | |- context [user_update ?spec ?u ?s] =>
        destruct (user_update spec u s) as [[?|] ?]
    | |- context [user_delete ?spec ?s] =>
        destruct (user_delete spec s) as [[?|] ?]
    end;
  cbn [fst snd found_or_raise is_Raise]; rewrite ?added_after.

Ltac not_in_calls :=
  let H := fresh in
  intros H;
  repeat (apply elem_of_cons in H as [H|H]; [discriminate|]);
  by apply elem_of_nil in H.

(** X1. Whatever the unit of work and the arguments, the calls of each of
    the seven operations follow the transactional discipline: scopes are
    entered and left in turn, the repository is called only inside a scope
    that has not committed, a scope left normally has committed exactly
    once, a scope left by an exception not at all. *)
Theorem service_calls_transactional {S : Type} `{!UnitOfWork S}
    {hasher : Security} (w : World S) (user_id : Z) (email : value)
    (skip limit : option Z) (create_schema update_schema : Schema) :
  transactional (added w (UserService.get_by_id user_id w).2) /\
  transactional (added w (UserService.get_user_with_refresh_session email w).2) /\
  transactional (added w (UserService.get_all skip limit w).2) /\
  transactional (added w (UserService.get_by_email email w).2) /\
  transactional (added w (UserService.create create_schema w).2) /\
  transactional (added w (UserService.update user_id update_schema w).2) /\
  transactional (added w (UserService.delete user_id w).2).
Proof.
  rewrite get_by_id_run, get_user_with_refresh_session_run, get_all_run,
    get_by_email_run, create_run, update_run, delete_run.
  case_repository; repeat split; reflexivity.
Qed.

(** The discipline does reject logs: a repository call outside of a scope,
    a scope left normally without commit, a commit before an exit by
    exception and a scope left open are all refused. *)
Example transactional_rejects (spec : Specification) :
  ~ transactional [CGet spec] /\
  ~ transactional [CEnter; CGet spec; CExit false] /\
  ~ transactional [CEnter; CDelete spec; CCommit; CExit true] /\
  ~ transactional [CEnter; CGet spec; CCommit].
Proof. repeat split; discriminate. Qed.

(** X2. Where the service's own [raise] stands, whatever the unit of
    work: when [delete] raises NotFound its calls are enter, delete and an
    exit by the exception, without commit; when [get_by_id] or [update]
    raise NotFound, or [create] raises AlreadyExists, their calls are one
    scope with its repository call and commit, left normally before the
    raise. *)
Theorem own_raise_and_scope {S : Type} `{!UnitOfWork S}
    {hasher : Security} (w : World S) (user_id : Z)
    (create_schema update_schema : Schema) :
  ((UserService.delete user_id w).1 =
     Raise (UserNotFoundException (UserIDSpecification user_id)) ->
   added w (UserService.delete user_id w).2 =
     [CEnter; CDelete (UserIDSpecification user_id); CExit true]) /\
  ((UserService.get_by_id user_id w).1 =
     Raise (UserNotFoundException (UserIDSpecification user_id)) ->
   added w (UserService.get_by_id user_id w).2 =
     [CEnter; CGet (UserIDSpecification user_id); CCommit; CExit false]) /\
  ((UserService.update user_id update_schema w).1 =
     Raise (UserNotFoundException (UserIDSpecification user_id)) ->
   added w (UserService.update user_id update_schema w).2 =
     [CEnter; CUpdate (UserIDSpecification user_id) update_schema;
      CCommit; CExit false]) /\
  ((UserService.create create_schema w).1 = Raise UserAlreadyExistsException ->
   added w (UserService.create create_schema w).2 =
     [CEnter;
      CGet (UserEmailSpecification (getattr "email" create_schema));
      CCommit; CExit false]).
Proof.
  rewrite get_by_id_run, create_run, update_run, delete_run.
  case_repository; repeat split; try done; discriminate.
Qed.

(** X3. Whatever the unit of work and the arguments, the four reading
    operations make no write call on the repository, [update] and [delete]
    make exactly one, and [create] makes one when it returns and none when
    it raises. *)
Theorem write_calls_per_operation {S : Type} `{!UnitOfWork S}
    {hasher : Security} (w : World S) (user_id : Z) (email : value)
    (skip limit : option Z) (create_schema update_schema : Schema) :
  count_writes (added w (UserService.get_by_id user_id w).2) = 0%nat /\
  count_writes
    (added w (UserService.get_user_with_refresh_session email w).2) = 0%nat /\
  count_writes (added w (UserService.get_all skip limit w).2) = 0%nat /\
  count_writes (added w (UserService.get_by_email email w).2) = 0%nat /\
  count_writes (added w (UserService.update user_id update_schema w).2) = 1%nat /\
  count_writes (added w (UserService.delete user_id w).2) = 1%nat /\
  count_writes (added w (UserService.create create_schema w).2) =
    (if is_Raise (UserService.create create_schema w).1 then 0%nat else 1%nat).
Proof.
  rewrite get_by_id_run, get_user_with_refresh_session_run, get_all_run,
    get_by_email_run, create_run, update_run, delete_run.
  case_repository; repeat split; reflexivity.
Qed.

(** X4. How the service's own signals follow the repository's answers,
    whatever the unit of work: [get_by_id], [update] and [delete] return
    the user the repository returned, and raise NotFound with the id
    filter of the call when it returned none; [create] raises
    AlreadyExists exactly when the lookup by the payload's email returned
    a user. *)
Theorem exceptions_follow_repository {S : Type} `{!UnitOfWork S}
    {hasher : Security} (w : World S) (user_id : Z)
    (create_schema update_schema : Schema) :
  (UserService.get_by_id user_id w).1 =
    found_or_raise (UserIDSpecification user_id)
      (user_get (UserIDSpecification user_id) (aenter (store w))).1 /\
  (UserService.update user_id update_schema w).1 =
    found_or_raise (UserIDSpecification user_id)
      (user_update (UserIDSpecification user_id) update_schema
                   (aenter (store w))).1 /\
  (UserService.delete user_id w).1 =
    found_or_raise (UserIDSpecification user_id)
      (user_delete (UserIDSpecification user_id) (aenter (store w))).1 /\
  ((UserService.create create_schema w).1 = Raise UserAlreadyExistsException <->
   is_Some (user_get (UserEmailSpecification (getattr "email" create_schema))
                     (aenter (store w))).1).
Proof.
  rewrite get_by_id_run, create_run, update_run, delete_run.
  case_repository; repeat split; try done; by eexists.
Qed.

Lemma create_dictionary (hash : value) (create_schema : Schema) :
  let d := <["hashed_password" := hash]>
             (model_dump {["password"]} false create_schema) in
  d !! "password" = None /\
  d !! "hashed_password" = Some hash /\
  (forall k, k <> "password" -> k <> "hashed_password" ->
             d !! k = values create_schema !! k).
Proof.
  intros d. subst d. split; [|split].
  - rewrite lookup_insert_ne by done. apply model_dump_excluded. set_solver.
  - by rewrite lookup_insert_eq.
  - intros k Hk1 Hk2. rewrite lookup_insert_ne by done.
    apply model_dump_kept. set_solver.
Qed.

(** X6. Whatever the unit of work, when the lookup by the payload's email
    finds no user, the one write call of [create] is a [create] call whose
    dictionary has no [password] key, has the hash of the payload's
    password under [hashed_password], and has the payload's value under
    every other key. *)
Theorem create_passes_hashed_dictionary {S : Type} `{!UnitOfWork S}
    {hasher : Security} (create_schema : Schema) (w : World S) :
  (user_get (UserEmailSpecification (getattr "email" create_schema))
            (aenter (store w))).1 = None ->
  exists d,
    List.filter is_write (added w (UserService.create create_schema w).2) =
      [CCreate d] /\
    d !! "password" = None /\
    d !! "hashed_password" =
      Some (generate_hashed_password (getattr "password" create_schema)) /\
    (forall k, k <> "password" -> k <> "hashed_password" ->
               d !! k = values create_schema !! k).
Proof.
  intros Hnone. rewrite create_run. rewrite Hnone. cbn [fst snd].
  rewrite added_after.
  eexists. split; [reflexivity|]. apply create_dictionary.
Qed.

Lemma create_passes_hashed_dictionary_witness :
  (user_get (UserEmailSpecification (getattr "email" carol))
            (aenter (store two_users))).1 = None /\
  exists d,
    List.filter is_write
      (added two_users (@UserService.create _ _ tag_hash carol two_users).2) =
      [CCreate d] /\
    d !! "password" = None /\
    d !! "hashed_password" =
      Some (@generate_hashed_password tag_hash (getattr "password" carol)) /\
    (forall k, k <> "password" -> k <> "hashed_password" ->
               d !! k = values carol !! k).
Proof.
  assert (H : (user_get (UserEmailSpecification (getattr "email" carol))
                        (aenter (store two_users))).1 = None) by reflexivity.
  exact (conj H (@create_passes_hashed_dictionary _ _ tag_hash carol two_users H)).
Defined.

(** X7. Whatever the unit of work, a [create] that raises leaves the world
    (store and call log) exactly as a [get_by_email] on the payload's
    email leaves it: a rejected creation has done a lookup and nothing
    more. *)
Theorem rejected_create_is_a_lookup {S : Type} `{!UnitOfWork S}
    {hasher : Security} (create_schema : Schema) (w : World S) :
  is_Raise (UserService.create create_schema w).1 = true ->
  (UserService.create create_schema w).2 =
    (UserService.get_by_email (getattr "email" create_schema) w).2.
Proof.
  rewrite create_run, get_by_email_run.
  destruct (user_get _ _) as [[u|] s]; cbn [fst snd is_Raise]; [done|].
  discriminate.
Qed.

Lemma rejected_create_is_a_lookup_witness :
  is_Raise (@UserService.create _ _ tag_hash alice_again two_users).1 = true /\
  (@UserService.create _ _ tag_hash alice_again two_users).2 =
    (UserService.get_by_email (getattr "email" alice_again) two_users).2.
Proof.
  assert (H : is_Raise
                (@UserService.create _ _ tag_hash alice_again two_users).1 = true)
    by reflexivity.
  exact (conj H (@rejected_create_is_a_lookup _ _ tag_hash alice_again two_users H)).
Defined.

(* --------------------------------------------------------------------- *)
(* 12. How the operations compose, on the in-memory storage layer         *)
(* --------------------------------------------------------------------- *)

Lemma find_snoc {A : Type} (f : A -> bool) (l : list A) (x : A) :
  List.find f (l ++ [x]) =
    match List.find f l with
    | Some y => Some y
    | None => if f x then Some x else None
    end.
Proof.
  induction l as [|a l IH]; simpl; [done|]. by destruct (f a).
Qed.

Lemma getattr_declared (name : string) (s : Schema) (v : value) :
  values s !! name = Some v -> getattr name s = v.
Proof. unfold getattr. by intros ->. Qed.

Lemma email_not_listed (e : value) (t : Table) :
  lookup_user (UserEmailSpecification e) t = None -> Some e ∉ emails t.
Proof.
  intros H Hin. apply lookup_user_None in H. rewrite Forall_forall in H.
  unfold emails in Hin. apply list_elem_of_In, in_map_iff in Hin
    as [u [Hu Hin]].
  apply list_elem_of_In in Hin. specialize (H u Hin).
  simpl in H. apply bool_decide_eq_false in H. by apply H.
Qed.

Lemma filter_other_ids (n : Z) (l : list User) :
  Forall (fun u => uid u < n) l ->
  List.filter (fun r => negb (bool_decide (uid r = n))) l = l.
Proof.
  induction 1 as [|u l Hu _ IH]; simpl; [done|].
  rewrite bool_decide_eq_false_2 by lia. simpl. by rewrite IH.
Qed.

(** X8. The four reading operations leave the storage with the committed
    table it had and nothing in flight, whatever they return or raise:
    their commit publishes nothing. *)
Theorem reads_leave_storage_unchanged (w : World Database) (user_id : Z)
    (email : value) (skip limit : option Z) :
  store (UserService.get_by_id user_id w).2 = at_rest (committed (store w)) /\
  store (UserService.get_user_with_refresh_session email w).2 =
    at_rest (committed (store w)) /\
  store (UserService.get_all skip limit w).2 = at_rest (committed (store w)) /\
  store (UserService.get_by_email email w).2 = at_rest (committed (store w)).
Proof.
  rewrite get_by_id_run, get_user_with_refresh_session_run, get_all_run,
    get_by_email_run.
  repeat split; reflexivity.
Qed.

(** X9. When the payload declares its email and no stored user has it,
    [create] returns a user that [get_by_email] on that email then
    returns, and a second [create] with the same payload raises
    AlreadyExists and leaves the committed table as the first one left
    it. *)
Theorem created_user_blocks_recreation {hasher : Security}
    (create_schema : Schema) (w : World Database) (e : value) :
  values create_schema !! "email" = Some e ->
  Forall (fun u => columns u !! "email" <> Some e)
         (rows (committed (store w))) ->
  exists user w1 w2 w3,
    UserService.create create_schema w = (Return user, w1) /\
    UserService.get_by_email e w1 = (Return (Some user), w2) /\
    UserService.create create_schema w2 =
      (Raise UserAlreadyExistsException, w3) /\
    committed (store w3) = committed (store w1).
Proof.
  intros Hemail Hfresh. apply email_absent_lookup in Hfresh.
  pose proof (getattr_declared _ _ _ Hemail) as Hattr.
  set (d := <["hashed_password" :=
               generate_hashed_password (getattr "password" create_schema)]>
             (model_dump {["password"]} false create_schema)).
  set (user := {| uid := next_id (committed (store w)); columns := d |}).
  assert (Hsat : satisfies (UserEmailSpecification e) user = true).
  { apply satisfies_email. cbn [columns user]. subst d.
    destruct (create_dictionary
                (generate_hashed_password (getattr "password" create_schema))
                create_schema) as (_ & _ & Hk).
    rewrite Hk by done. exact Hemail. }
  assert (Hfound : lookup_user (UserEmailSpecification e)
                     {| rows := rows (committed (store w)) ++ [user];
                        next_id := next_id (committed (store w)) + 1 |}
                   = Some user).
  { unfold lookup_user in *. cbn [rows]. rewrite find_snoc, Hfresh.
    by rewrite Hsat. }
  exists user. do 3 eexists.
  split.
  { rewrite create_run, Hattr. cbn. rewrite Hfresh. reflexivity. }
  split.
  { rewrite get_by_email_run. cbn. fold d. fold user. rewrite Hfound.
    reflexivity. }
  split.
  { rewrite create_run, Hattr. cbn. fold d. fold user. rewrite Hfound.
    reflexivity. }
  reflexivity.
Qed.

Lemma created_user_blocks_recreation_witness :
  values carol !! "email" = Some (VStr "c@example.com") /\
  Forall (fun u => columns u !! "email" <> Some (VStr "c@example.com"))
         (rows (committed (store two_users))) /\
  exists user w1 w2 w3,
    @UserService.create _ _ tag_hash carol two_users = (Return user, w1) /\
    UserService.get_by_email (VStr "c@example.com") w1 =
      (Return (Some user), w2) /\
    @UserService.create _ _ tag_hash carol w2 =
      (Raise UserAlreadyExistsException, w3) /\
    committed (store w3) = committed (store w1).
Proof.
  assert (H1 : values carol !! "email" = Some (VStr "c@example.com"))
    by reflexivity.
  assert (H2 : Forall (fun u => columns u !! "email" <>
                                Some (VStr "c@example.com"))
                      (rows (committed (store two_users))))
    by (repeat constructor; discriminate).
  exact (conj H1 (conj H2
           (@created_user_blocks_recreation tag_hash carol two_users _ H1 H2))).
Defined.

(** X10. When the payload declares its email, [create] keeps the emails of
    the committed table pairwise distinct, whether it returns or raises:
    its lookup before the write is what guards the uniqueness. *)
Theorem create_preserves_unique_emails {hasher : Security}
    (create_schema : Schema) (w : World Database) (e : value) :
  values create_schema !! "email" = Some e ->
  unique_emails (committed (store w)) ->
  unique_emails (committed (store (UserService.create create_schema w).2)).
Proof.
  intros Hemail Huniq. pose proof (getattr_declared _ _ _ Hemail) as Hattr.
  rewrite create_run, Hattr. cbn.
  destruct (lookup_user (UserEmailSpecification e) (committed (store w)))
    as [u|] eqn:E; cbn; [exact Huniq|].
  unfold unique_emails, emails in *. cbn [rows columns].
  rewrite map_app. cbn [map].
  destruct (create_dictionary
              (generate_hashed_password (getattr "password" create_schema))
              create_schema) as (_ & _ & Hk).
  rewrite Hk by done. rewrite Hemail.
  apply NoDup_app. split; [exact Huniq|]. split.
  - intros x Hx Hx'. apply list_elem_of_singleton in Hx'. subst x.
    by apply (email_not_listed e (committed (store w))).
  - apply NoDup_singleton.
Qed.

Lemma create_preserves_unique_emails_witness :
  values carol !! "email" = Some (VStr "c@example.com") /\
  unique_emails (committed (store two_users)) /\
  unique_emails
    (committed (store (@UserService.create _ _ tag_hash carol two_users).2)).
Proof.
  assert (H1 : values carol !! "email" = Some (VStr "c@example.com"))
    by reflexivity.
  assert (H2 : unique_emails (committed (store two_users))).
  { unfold unique_emails.
    apply (bool_decide_unpack (NoDup (emails (committed (store two_users))))).
    vm_compute. exact I. }
  exact (conj H1 (conj H2
           (@create_preserves_unique_emails tag_hash carol two_users _ H1 H2))).
Defined.

(** X11. On a table whose identifiers are all below the next one to be
    assigned, and for an email no stored user has, the user that [create]
    returns is the one [get_by_id] then returns for its id, and [delete]
    of that id returns it and leaves the stored users as they were before
    the creation. *)
Theorem create_then_delete_restores {hasher : Security}
    (create_schema : Schema) (w : World Database) :
  fresh_ids (committed (store w)) ->
  Forall (fun u => columns u !! "email" <>
                   Some (getattr "email" create_schema))
         (rows (committed (store w))) ->
  exists user w1 w2 w3,
    UserService.create create_schema w = (Return user, w1) /\
    UserService.get_by_id (uid user) w1 = (Return user, w2) /\
    UserService.delete (uid user) w2 = (Return user, w3) /\
    rows (committed (store w3)) = rows (committed (store w)).
Proof.
  intros Hids Hfresh. apply email_absent_lookup in Hfresh.
  set (d := <["hashed_password" :=
               generate_hashed_password (getattr "password" create_schema)]>
             (model_dump {["password"]} false create_schema)).
  set (n := next_id (committed (store w))).
  set (user := {| uid := n; columns := d |}).
  assert (Hfound : lookup_user (UserIDSpecification n)
                     {| rows := rows (committed (store w)) ++ [user];
                        next_id := n + 1 |} = Some user).
  { unfold lookup_user. cbn [rows]. rewrite find_snoc.
    change (List.find _ (rows (committed (store w))))
      with (lookup_user (UserIDSpecification n) (committed (store w))).
    rewrite id_absent_lookup.
    - simpl. by rewrite bool_decide_eq_true_2.
    - unfold fresh_ids in Hids. eapply Forall_impl; [exact Hids|].
      intros u Hu. subst n. cbv beta in Hu |- *. lia. }
  exists user. do 3 eexists.
  split.
  { rewrite create_run. cbn. rewrite Hfresh. reflexivity. }
  split.
  { rewrite get_by_id_run. cbn. fold d n. fold user. rewrite Hfound.
    reflexivity. }
  split.
  { rewrite delete_run. cbn. unfold db_delete. cbn. fold d n. fold user.
    rewrite Hfound. reflexivity. }
  cbn. rewrite List.filter_app. cbn.
  rewrite bool_decide_eq_true_2 by done. cbn. rewrite app_nil_r.
  by apply filter_other_ids.
Qed.

Lemma create_then_delete_restores_witness :
  fresh_ids (committed (store two_users)) /\
  Forall (fun u => columns u !! "email" <> Some (getattr "email" carol))
         (rows (committed (store two_users))) /\
  exists user w1 w2 w3,
    @UserService.create _ _ tag_hash carol two_users = (Return user, w1) /\
    UserService.get_by_id (uid user) w1 = (Return user, w2) /\
    UserService.delete (uid user) w2 = (Return user, w3) /\
    rows (committed (store w3)) = rows (committed (store two_users)).
Proof.
  assert (H1 : fresh_ids (committed (store two_users)))
    by (repeat constructor).
  assert (H2 : Forall (fun u => columns u !! "email" <>
                                Some (getattr "email" carol))
                      (rows (committed (store two_users))))
    by (repeat constructor; discriminate).
  exact (conj H1 (conj H2
           (@create_then_delete_restores tag_hash carol two_users H1 H2))).
Defined.

(** X5. Whatever the unit of work, the payload and the password in it, the
    one write call of [update] is an [update] call with the id filter and
    the payload exactly as the caller gave it, and the whole run is the
    same under any two hashing functions: the hash that [update] computes
    reaches neither the repository nor the result. *)
Theorem update_passes_payload_unhashed {S : Type} `{!UnitOfWork S}
    (h1 h2 : Security) (user_id : Z) (update_schema : Schema) (w : World S) :
  List.filter is_write
    (added w (@UserService.update S _ h1 user_id update_schema w).2) =
    [CUpdate (UserIDSpecification user_id) update_schema] /\
  @UserService.update S _ h1 user_id update_schema w =
    @UserService.update S _ h2 user_id update_schema w.
Proof.
  rewrite !update_run. cbn [snd]. rewrite added_after. split; reflexivity.
Qed.
